(** * Overdose dashboard: data table, selection filter, statistics,
      chart scale and authentication handlers.

    Shallow embedding of the two variants of [App.jsx]:
    - the session variant (selection state [selectedDrugs], [handleToggle],
      "Select all", "Clear", [filtered], [totalsByMonth], [grandTotal],
      [avgMonthly]);
    - the authentication variant ([handleRegister], [handleLogin],
      [handleLogout]);
    - the [Chart] component's scale [yPos], identical in both.

    JS arrays are lists, JS strings are [string], the counts are integers
    ([Z]); the average divides two integers and is computed over the
    rationals ([Q]) and rounded with [Math.round]'s rule.  The chart's scales
    are given twice: [Chart64] is the scale as the page runs it, on binary64
    numbers, operation for operation; [Chart] is its exact-arithmetic
    idealisation over the rationals, used only for order properties. *)

From Stdlib Require Import ZArith QArith Qround Lqa Uint63 Floats.
From stdpp Require Import base list strings gmap.

Open Scope string_scope.
Open Scope Z_scope.

(** ** The literal tables *)

Definition monthOrder : list string :=
  [ "2024-01"; "2024-02"; "2024-03"; "2024-04"; "2024-05"; "2024-06";
    "2024-07"; "2024-08"; "2024-09"; "2024-10"; "2024-11"; "2024-12" ].

(** [series] is an object literal with string keys; [Object.entries] and
    [Object.keys] enumerate it in insertion order, so it is kept as an
    association list in source order. *)
Definition series : list (string * list Z) :=
  [ ("Fentanyl", [142; 151; 158; 161; 169; 176; 181; 187; 193; 199; 205; 212]);
    ("Heroin", [88; 91; 93; 95; 99; 103; 104; 108; 110; 111; 113; 115]);
    ("Prescription Opioids",
       [96; 98; 100; 102; 105; 108; 110; 111; 114; 116; 118; 120]);
    ("Cocaine", [74; 76; 79; 82; 84; 86; 89; 91; 94; 96; 99; 101]);
    ("Methamphetamine", [65; 67; 69; 72; 74; 76; 78; 81; 83; 85; 87; 90]) ].

Record Row : Type := mkRow { month : string; drug : string; deaths : Z }.

(** [values[idx]]: an index past the end of the array reads [undefined] in
    the source.  The generator only uses indices of [monthOrder], and
    [series_lookup_in_range] below shows every such read hits an element, so
    the fallback [0] written here is never taken. *)
Definition at_index (values : list Z) (idx : nat) : Z :=
  default 0 (values !! idx).

(** [Object.entries(series).map(([drug, values]) => ({month, drug, deaths: values[idx]}))] *)
Definition month_rows (m : string) (idx : nat) : list Row :=
  map (fun '(d, values) => mkRow m d (at_index values idx)) series.

(** [monthOrder.flatMap((month, idx) => ...)] with the running index. *)
Fixpoint flatMap_idx {A B : Type} (f : A -> nat -> list B) (idx : nat)
    (l : list A) : list B :=
  match l with
  | [] => []
  | x :: rest => f x idx ++ flatMap_idx f (S idx) rest
  end.

Definition overdoseData : list Row := flatMap_idx month_rows 0%nat monthOrder.

(** [Object.keys(series)] *)
Definition drugs : list string := map fst series.

(** ** Selection state and its three operations *)

(** [arr.includes(x)] on an array of strings. *)
Definition includes (arr : list string) (x : string) : bool :=
  existsb (String.eqb x) arr.

(** The updater passed to [setSelectedDrugs] by [handleToggle]. *)
Definition handleToggle (d : string) (prev : list string) : list string :=
  if includes prev d
  then List.filter (fun d' => negb (String.eqb d' d)) prev
  else prev ++ [d].

Definition selectAll (prev : list string) : list string := drugs.
Definition clear (prev : list string) : list string := [].

Inductive Action : Type :=
  | Toggle (d : string)
  | SelectAll
  | Clear.

Definition step (a : Action) (sel : list string) : list string :=
  match a with
  | Toggle d => handleToggle d sel
  | SelectAll => selectAll sel
  | Clear => clear sel
  end.

(** [useState(drugs)] *)
Definition initialSelection : list string := drugs.

(** An action the page can fire: the checkboxes are rendered from [drugs]
    only, so a toggle always carries a known drug. *)
Definition enabled (a : Action) : Prop :=
  match a with
  | Toggle d => d ∈ drugs
  | _ => True
  end.

Inductive reachable : list string -> Prop :=
  | reach_init : reachable initialSelection
  | reach_step a sel : reachable sel -> enabled a -> reachable (step a sel).

(** ** Derived values of the session variant *)

Definition filtered (selectedDrugs : list string) : list Row :=
  List.filter (fun entry => includes selectedDrugs (drug entry)) overdoseData.

(** [rows.reduce((sum, entry) => sum + entry.deaths, 0)] *)
Definition sumDeaths (rows : list Row) : Z :=
  fold_left (fun sum entry => sum + deaths entry) rows 0.

Definition grandTotal (selectedDrugs : list string) : Z :=
  sumDeaths (filtered selectedDrugs).

Definition monthTotal (rows : list Row) (m : string) : Z :=
  sumDeaths (List.filter (fun entry => String.eqb (month entry) m) rows).

Definition totalsByMonth (selectedDrugs : list string) : list (string * Z) :=
  map (fun m => (m, monthTotal (filtered selectedDrugs) m)) monthOrder.

(** [Math.round]: nearest integer, a tie going up. *)
Definition Math_round (x : Q) : Z := Qfloor (x + (1 # 2))%Q.

Definition avgMonthly (selectedDrugs : list string) : Z :=
  match length monthOrder with
  | O => 0
  | len => Math_round (inject_Z (grandTotal selectedDrugs) / inject_Z (Z.of_nat len))
  end.

(** [Math.max(...filtered.map(d => d.deaths))], with the guard for an empty
    selection. *)
Definition maxValue (selectedDrugs : list string) : Z :=
  match filtered selectedDrugs with
  | [] => 1
  | r :: rest => fold_left Z.max (map deaths rest) (deaths r)
  end.

(** ** Series, colours and the latest month of the session variant *)

Definition palette : list (string * string) :=
  [ ("Fentanyl", "#7c3aed");
    ("Heroin", "#f97316");
    ("Prescription Opioids", "#22c55e");
    ("Cocaine", "#06b6d4");
    ("Methamphetamine", "#e11d48") ].

(** [obj[key]] on an object literal with string keys, for a key that is
    not a property inherited from [Object.prototype]; [None] is
    [undefined].  For an inherited name ([objectPrototypeNames]) the source
    reads the inherited value instead, which this lookup does not model. *)
Definition obj_get {A : Type} (obj : list (string * A)) (key : string) : option A :=
  snd <$> List.find (fun e => String.eqb (fst e) key) obj.

(** The property names every object literal inherits from
    [Object.prototype]. *)
Definition objectPrototypeNames : list string :=
  [ "constructor"; "__defineGetter__"; "__defineSetter__"; "hasOwnProperty";
    "__lookupGetter__"; "__lookupSetter__"; "isPrototypeOf";
    "propertyIsEnumerable"; "toString"; "valueOf"; "__proto__";
    "toLocaleString" ].

(** A point handed to the chart is either a row of the table itself (what
    [find] returned) or a fresh object with a month and a count only. *)
Inductive Point : Type :=
  | RowPoint (r : Row)
  | BarePoint (m : string) (v : Z).

Definition point_month (p : Point) : string :=
  match p with
  | RowPoint r => month r
  | BarePoint m _ => m
  end.

Definition point_deaths (p : Point) : Z :=
  match p with
  | RowPoint r => deaths r
  | BarePoint _ v => v
  end.

Record DrugSeries : Type :=
  mkSeries { s_drug : string; s_color : string; s_points : list Point }.

(** [filtered.find((d) => d.drug === drug && d.month === month) ?? { month, deaths: 0 }] *)
Definition pointFor (rows : list Row) (d m : string) : Point :=
  match List.find (fun r => String.eqb (drug r) d && String.eqb (month r) m) rows with
  | Some r => RowPoint r
  | None => BarePoint m 0
  end.

Definition dataByDrug (selectedDrugs : list string) : list DrugSeries :=
  map (fun d =>
         mkSeries d (default "#0ea5e9" (obj_get palette d))
           (map (pointFor (filtered selectedDrugs) d) monthOrder))
      selectedDrugs.

(** [months[months.length - 1]] *)
Definition latestMonth : option string :=
  monthOrder !! (length monthOrder - 1)%nat.

(** [totalsByMonth.find((row) => row.month === latestMonth)?.total ?? 0] *)
Definition latestTotal (selectedDrugs : list string) : Z :=
  default 0
    (snd <$> List.find
       (fun row => match latestMonth with
                   | Some m => String.eqb (fst row) m
                   | None => false
                   end)
       (totalsByMonth selectedDrugs)).

(** ** The derived values of the authentication variant, which has no
       selection: it shows the whole table. *)
Module AuthApp.

Definition filtered : list Row := overdoseData.

Definition totalsByMonth : list (string * Z) :=
  map (fun m => (m, monthTotal filtered m)) monthOrder.

Definition grandTotal : Z := sumDeaths filtered.

Definition avgMonthly : Z :=
  match length monthOrder with
  | O => 0
  | len => Math_round (inject_Z grandTotal / inject_Z (Z.of_nat len))
  end.

End AuthApp.

(** ** The chart's scales *)

(** The vertical scale over exact rationals: the idealisation of [yPos], in
    which no product or quotient is rounded and nothing overflows. *)
Module Chart.

Local Open Scope Q_scope.

Definition width : Q := 960.
Definition height : Q := 420.

Record Margin : Type :=
  mkMargin { m_top : Q; m_right : Q; m_bottom : Q; m_left : Q }.

Definition margin : Margin := mkMargin 32 32 72 64.

Definition plotWidth : Q := width - m_left margin - m_right margin.
Definition plotHeight : Q := height - m_top margin - m_bottom margin.

(** [a > b] on numbers. *)
Definition Qgt_bool (a b : Q) : bool := negb (Qle_bool a b).

(** The divisor of [yPos]: [maxValue > 0 ? maxValue : 1]. *)
Definition yDivisor (maxValue : Q) : Q :=
  if Qgt_bool maxValue 0 then maxValue else 1.

Definition yPos (maxValue val : Q) : Q :=
  m_top margin + plotHeight - (plotHeight * val) / yDivisor maxValue.

End Chart.

(** [f] on every whole number from [lo] on, [count] of them. *)
Fixpoint forall_from (f : Z -> bool) (lo : Z) (count : nat) : bool :=
  match count with
  | O => true
  | S k => f lo && forall_from f (lo + 1) k
  end.

(** The scales on binary64 numbers, operation for operation. *)
Module Chart64.

Local Open Scope float_scope.

Definition width : float := 960.
Definition height : float := 420.
Definition margin_top : float := 32.
Definition margin_bottom : float := 72.

Definition plotHeight : float := height - margin_top - margin_bottom.

Definition yDivisor (maxValue : float) : float :=
  if 0 <? maxValue then maxValue else 1.

Definition yPos (maxValue val : float) : float :=
  margin_top + plotHeight - (plotHeight * val) / yDivisor maxValue.

(** A count of the table as a number. *)
Definition of_count (z : Z) : float := of_uint63 (Uint63.of_Z z).

(** Does the supplied maximum go to the top margin and 0 to the baseline? *)
Definition extremes_ok (m : Z) : bool :=
  (yPos (of_count m) (of_count m) =? margin_top)
  && (yPos (of_count m) 0 =? margin_top + plotHeight).

Definition margin_left : float := 64.
Definition margin_right : float := 32.

Definition plotWidth : float := width - margin_left - margin_right.

(** [months.length > 1 ? months.length - 1 : 1], as a function of
    [months.length]. *)
Definition stepsFor (len : nat) : float :=
  if (1 <? len)%nat then of_count (Z.of_nat len) - 1 else 1.

Definition steps (months : list string) : float := stepsFor (length months).

(** [margin.left + (plotWidth / steps) * idx], with the [steps] it closes
    over. *)
Definition xPosWith (st idx : float) : float :=
  margin_left + (plotWidth / st) * idx.

Definition xPos (months : list string) (idx : float) : float :=
  xPosWith (steps months) idx.

(** [Array.from({ length: 5 }, (_, i) => (maxValue / 4) * i)] *)
Definition gridLines (maxValue : float) : list float :=
  map (fun i => (maxValue / 4) * of_count (Z.of_nat i)) (seq 0 5).

(** Equality of two lists of numbers, bit for bit. *)
Fixpoint floats_eqb (l1 l2 : list float) : bool :=
  match l1, l2 with
  | [], [] => true
  | x :: l1', y :: l2' => Leibniz.eqb x y && floats_eqb l1' l2'
  | _, _ => false
  end.

(** The checks below are run on ranges of whole numbers. *)

Definition top_ok (m : Z) : bool :=
  Leibniz.eqb (yPos (of_count m) (of_count m)) margin_top.

Definition gridLines_ok (m : Z) : bool :=
  floats_eqb (map (yPos (of_count m)) (gridLines (of_count m)))
             [348; 269; 190; 111; 32].

Definition finite_on (maxValue : float) (counts : list Z) : bool :=
  forallb (fun v => is_finite (yPos maxValue (of_count v))) counts.

Definition finite_ok (counts : list Z) (m : Z) : bool :=
  finite_on (of_count m) counts
  && forallb (fun v => is_finite (yPos (of_count m) v)) (gridLines (of_count m)).

Definition xAxis_ok (len : nat) : bool :=
  let st := stepsFor len in
  (0 <? st)
  && Leibniz.eqb (xPosWith st 0) margin_left
  && forall_from
       (fun i => xPosWith st (of_count i) <? xPosWith st (of_count (i + 1)))
       0 (len - 1).

Definition xLast_ok (len : nat) : bool :=
  let x := xPosWith (stepsFor len) (of_count (Z.of_nat len - 1)) in
  (width - margin_right - 0x1p-43 <=? x)
  && (x <=? width - margin_right + 0x1p-43).

End Chart64.

(** ** The authentication handlers *)

Module Auth.

(** What the identity service rejects with; the handlers read only its
    [message]. *)
Record AuthErr : Type := mkErr { message : string }.

(** How an awaited call to the service settles. *)
Inductive Outcome : Type :=
  | Resolved
  | Rejected (err : AuthErr).

(** The external service: the handlers see nothing of it but how each call
    settles, so it is an arbitrary response function of email and
    password. *)
Record IdentityService : Type := mkService {
  createUserWithEmailAndPassword : string -> string -> Outcome;
  signInWithEmailAndPassword : string -> string -> Outcome;
  signOut : Outcome
}.

(** The component state the handlers read and write. *)
Record State : Type := mkState {
  user : option string;
  authLoading : bool;
  authError : string;
  email : string;
  password : string
}.

(** An async handler: it updates the state and its promise either fulfils
    with a value or rejects with the error nobody caught. *)
Definition Handler (A : Type) : Type := State -> State * (A + AuthErr).

Definition ret {A : Type} (a : A) : Handler A := fun st => (st, inl a).

Definition bind {A B : Type} (h : Handler A) (k : A -> Handler B) : Handler B :=
  fun st =>
    match h st with
    | (st', inl a) => k a st'
    | (st', inr err) => (st', inr err)
    end.

(** [await call]: a rejection is thrown at the await. *)
Definition await (o : Outcome) : Handler unit :=
  fun st =>
    match o with
    | Resolved => (st, inl tt)
    | Rejected err => (st, inr err)
    end.

(** [try { body } catch (err) { handler(err) }] *)
Definition try_catch {A : Type} (body : Handler A) (handler : AuthErr -> Handler A)
    : Handler A :=
  fun st =>
    match body st with
    | (st', inl a) => (st', inl a)
    | (st', inr err) => handler err st'
    end.

(** [st] with its error string replaced. *)
Definition with_error (st : State) (msg : string) : State :=
  mkState (user st) (authLoading st) msg (email st) (password st).

Definition setAuthError (msg : string) : Handler unit :=
  fun st => (with_error st msg, inl tt).

Declare Scope handler_scope.
Delimit Scope handler_scope with handler.
Notation "h1 ;; h2" := (bind h1 (fun _ => h2))
  (at level 100, right associativity) : handler_scope.

Section Handlers.
Variable svc : IdentityService.

(** The handlers close over [email] and [password] of the render that
    created them. *)
Definition handleRegister : Handler unit :=
  fun st =>
    (setAuthError "" ;;
     try_catch
       (await (createUserWithEmailAndPassword svc (email st) (password st)))
       (fun err => setAuthError (message err)))%handler st.

Definition handleLogin : Handler unit :=
  fun st =>
    (setAuthError "" ;;
     try_catch
       (await (signInWithEmailAndPassword svc (email st) (password st)))
       (fun err => setAuthError (message err)))%handler st.

Definition handleLogout : Handler unit :=
  await (signOut svc).
End Handlers.

(** The error area of the page: [authError ? <p className="error">...] is
    rendered in the signed-out form only. *)
Definition displayedError (st : State) : option string :=
  match user st with
  | Some _ => None
  | None => if String.eqb (authError st) "" then None else Some (authError st)
  end.

(** A signed-in session with an empty error string, and a service whose
    sign-out call fails. *)
Definition signedIn : State :=
  mkState (Some "you@example.com") false "" "you@example.com" "secret".

Definition networkDown : AuthErr :=
  mkErr "Firebase: Error (auth/network-request-failed).".

Definition failingSignOut : IdentityService :=
  mkService (fun _ _ => Resolved) (fun _ _ => Resolved) (Rejected networkDown).

End Auth.

(** ** Quantities the properties are stated with *)

(** The number of rows of a table whose drug lies in a set of names, counted
    row by row. *)
Fixpoint count_rows_in (names : gset string) (rows : list Row) : nat :=
  match rows with
  | [] => 0
  | r :: rest =>
      (if decide (drug r ∈ names) then 1 else 0) + count_rows_in names rest
  end.

(** The literal counts of the series table, array after array. *)
Definition seriesEntries : list Z := concat (map snd series).

Definition seriesTotal : Z := foldr Z.add 0 seriesEntries.

(** The sum of the [total] fields of a list of per-month totals. *)
Definition sumTotals (totals : list (string * Z)) : Z :=
  foldr (fun row acc => snd row + acc) 0 totals.

(** The sum of a quantity over a list of names. *)
Definition sum_over (f : string -> Z) (names : list string) : Z :=
  foldr (fun d acc => f d + acc) 0 names.

(** The sum of the literal array of one drug; 0 for a name that is not a key
    of [series]. *)
Definition seriesSum (d : string) : Z :=
  foldr Z.add 0 (default [] (obj_get series d)).

(** The counts a point of the page can carry, and the maxima the page can
    hand to the chart. *)
Definition pageCounts : list Z := 0 :: map deaths overdoseData.
Definition pageMaxima : list Z := 1 :: map deaths overdoseData.

(** * Properties *)

(** ** Array membership *)

Lemma includes_elem_of (arr : list string) (x : string) :
  includes arr x = true <-> x ∈ arr.
Proof.
  unfold includes. rewrite existsb_exists, list_elem_of_In. split.
  - intros (y & Hy & Heq). apply String.eqb_eq in Heq. now subst.
  - intros Hx. exists x. split; [assumption | apply String.eqb_refl].
Qed.

Lemma includes_false (arr : list string) (x : string) :
  includes arr x = false <-> x ∉ arr.
Proof.
  rewrite <- includes_elem_of. destruct (includes arr x); split; congruence.
Qed.

Lemma elem_of_remove (d : string) (prev : list string) (x : string) :
  x ∈ List.filter (fun d' => negb (String.eqb d' d)) prev <-> x ∈ prev /\ x <> d.
Proof.
  rewrite !list_elem_of_In, filter_In.
  destruct (String.eqb_spec x d) as [-> | Hne]; simpl; intuition congruence.
Qed.

Lemma elem_of_handleToggle (d : string) (prev : list string) (x : string) :
  x ∈ handleToggle d prev <->
  if includes prev d then x ∈ prev /\ x <> d else x ∈ prev \/ x = d.
Proof.
  unfold handleToggle. destruct (includes prev d).
  - apply elem_of_remove.
  - rewrite elem_of_app, list_elem_of_singleton. reflexivity.
Qed.

(** After a toggle the drug is in the selection exactly when it was not. *)
Lemma includes_handleToggle (d : string) (prev : list string) :
  includes (handleToggle d prev) d = negb (includes prev d).
Proof.
  destruct (includes prev d) eqn:E; simpl.
  - apply includes_false. rewrite elem_of_handleToggle, E. tauto.
  - apply includes_elem_of. rewrite elem_of_handleToggle, E. tauto.
Qed.

(** ** Toggling *)

(** C2. For every selection and every drug name (so in particular for each of
    the known drugs), toggling that drug twice in a row gives a selection with
    the same contents as the original one, compared as sets of names. *)
Theorem toggle_twice_same_set (prev : list string) (d : string) :
  list_to_set (handleToggle d (handleToggle d prev)) =@{gset string}
  list_to_set prev.
Proof.
  apply set_eq. intros x. rewrite !elem_of_list_to_set.
  rewrite elem_of_handleToggle, includes_handleToggle.
  destruct (includes prev d) eqn:E; simpl;
    rewrite elem_of_handleToggle, E.
  - apply includes_elem_of in E.
    destruct (decide (x = d)) as [-> | Hne]; tauto.
  - apply includes_false in E.
    split; [intros [[H | ->] Hne]; tauto | intros H; split; [tauto |]].
    intros ->. contradiction.
Qed.

(** The array itself may come back in another order: a removed drug is put
    back at the end. *)
Example toggle_twice_reorders :
  handleToggle "Fentanyl" (handleToggle "Fentanyl" drugs) =
  ["Heroin"; "Prescription Opioids"; "Cocaine"; "Methamphetamine"; "Fentanyl"].
Proof. reflexivity. Qed.

(** ** Filtering *)

Lemma length_filter_includes (sel : list string) (rows : list Row) :
  length (List.filter (fun entry => includes sel (drug entry)) rows) =
  count_rows_in (list_to_set sel) rows.
Proof.
  induction rows as [| r rest IH]; simpl; [reflexivity |].
  destruct (includes sel (drug r)) eqn:E.
  - apply includes_elem_of in E.
    rewrite decide_True by (now apply elem_of_list_to_set).
    simpl. now rewrite IH.
  - apply includes_false in E.
    rewrite decide_False by (now rewrite elem_of_list_to_set).
    simpl. exact IH.
Qed.

(** C3. For every selection, the number of filtered rows is the number of
    rows of the fixed dataset whose drug belongs to the selection set. *)
Theorem filtered_count (selectedDrugs : list string) :
  length (filtered selectedDrugs) =
  count_rows_in (list_to_set selectedDrugs) overdoseData.
Proof. apply length_filter_includes. Qed.

(** ** Select all, Clear and the selection invariant *)

Lemma filtered_nil : filtered [] = [].
Proof.
  unfold filtered. induction overdoseData as [| r rest IH]; simpl; auto.
Qed.

(** C8. From any selection, "Select all" followed by "Clear" leaves no
    filtered row and a grand total of 0. *)
Theorem select_all_then_clear (sel : list string) :
  filtered (step Clear (step SelectAll sel)) = [] /\
  grandTotal (step Clear (step SelectAll sel)) = 0.
Proof.
  simpl. unfold clear, grandTotal. rewrite filtered_nil. split; reflexivity.
Qed.

Lemma handleToggle_subseteq (d : string) (sel : list string) :
  d ∈ drugs -> sel ⊆ drugs -> handleToggle d sel ⊆ drugs.
Proof.
  intros Hd Hsel x Hx. apply elem_of_handleToggle in Hx.
  destruct (includes sel d).
  - apply Hsel. tauto.
  - destruct Hx as [Hx | ->]; [now apply Hsel | assumption].
Qed.

Lemma step_subseteq (a : Action) (sel : list string) :
  enabled a -> sel ⊆ drugs -> step a sel ⊆ drugs.
Proof.
  destruct a as [d | |]; simpl; intros Hen Hsel.
  - now apply handleToggle_subseteq.
  - unfold selectAll. reflexivity.
  - unfold clear. intros x Hx. inversion Hx.
Qed.

(** C9. Every selection reached from the initial one (all known drugs) by
    toggles of known drugs, "Select all" and "Clear" is a subset of the known
    drug names. *)
Theorem selection_subset_of_known (sel : list string) :
  reachable sel -> sel ⊆ drugs.
Proof.
  induction 1 as [| a sel Hreach IH Hen].
  - unfold initialSelection. reflexivity.
  - now apply step_subseteq.
Qed.

Lemma selection_subset_of_known_witness :
  reachable (step (Toggle "Heroin") (step Clear initialSelection)) /\
  step (Toggle "Heroin") (step Clear initialSelection) ⊆ drugs.
Proof.
  assert (Hknown : "Heroin" ∈ drugs)
    by (apply list_elem_of_In; simpl; tauto).
  assert (Hr : reachable (step (Toggle "Heroin") (step Clear initialSelection))).
  { apply reach_step; [apply reach_step; [apply reach_init | exact I] |].
    exact Hknown. }
  split; [exact Hr |].
  exact (selection_subset_of_known _ Hr).
Defined.

(** ** Totals *)

(** Every read [values[idx]] made while building the table is in range:
    each array of [series] has one entry per month. *)
Lemma series_lookup_in_range (d : string) (values : list Z) (idx : nat) :
  (d, values) ∈ series -> (idx < length monthOrder)%nat ->
  is_Some (values !! idx).
Proof.
  intros Hin Hidx. apply lookup_lt_is_Some.
  apply list_elem_of_In in Hin. simpl in Hin, Hidx.
  repeat (destruct Hin as [Hin | Hin]; [inversion Hin; subst; simpl; lia |]).
  contradiction.
Qed.

Lemma series_shape : map (fun e => length (snd e)) series = [12; 12; 12; 12; 12]%nat.
Proof. reflexivity. Qed.

(** C6. With every known drug selected, the grand total is the sum of the
    literal counts of the series table, the 60 entries of its five arrays of
    twelve. *)
Theorem grandTotal_full_selection :
  grandTotal drugs = seriesTotal /\ length seriesEntries = 60%nat.
Proof. split; vm_compute; reflexivity. Qed.

Lemma grandTotal_full_value : grandTotal drugs = 6640.
Proof. vm_compute. reflexivity. Qed.

(** [Math.round] returns an integer within one half of its argument. *)
Lemma Math_round_nearest (x : Q) :
  (x - (1 # 2) < inject_Z (Math_round x) /\
   inject_Z (Math_round x) <= x + (1 # 2))%Q.
Proof.
  unfold Math_round.
  pose proof (Qfloor_le (x + (1 # 2))) as Hle.
  pose proof (Qlt_floor (x + (1 # 2))) as Hlt.
  rewrite inject_Z_plus in Hlt. split; [| exact Hle].
  change (inject_Z 1) with 1%Q in Hlt. lra.
Qed.

(** C7. With every known drug selected, the average per month is the sum of
    all counts divided by 12 and rounded to the nearest integer: it is
    [Math.round] of that quotient, and lies within one half of it. *)
Theorem avgMonthly_full_selection :
  avgMonthly drugs = Math_round (inject_Z seriesTotal / 12) /\
  (inject_Z seriesTotal / 12 - (1 # 2) < inject_Z (avgMonthly drugs) /\
   inject_Z (avgMonthly drugs) <= inject_Z seriesTotal / 12 + (1 # 2))%Q.
Proof.
  assert (E : avgMonthly drugs = Math_round (inject_Z seriesTotal / 12))
    by (vm_compute; reflexivity).
  split; [exact E |]. rewrite E. apply Math_round_nearest.
Qed.

Lemma avgMonthly_full_value : avgMonthly drugs = 553.
Proof. vm_compute. reflexivity. Qed.

(** ** Monthly totals add up to the grand total *)

Section ByMonth.

Variable months : list string.
Hypothesis months_NoDup : NoDup months.

Lemma sumDeaths_acc (rows : list Row) (acc : Z) :
  fold_left (fun sum entry => sum + deaths entry) rows acc =
  acc + sumDeaths rows.
Proof.
  unfold sumDeaths. revert acc.
  induction rows as [| r rest IH]; intros acc; simpl; [lia |].
  rewrite (IH (acc + deaths r)), (IH (0 + deaths r)). lia.
Qed.

Lemma sumDeaths_cons (r : Row) (rows : list Row) :
  sumDeaths (r :: rows) = deaths r + sumDeaths rows.
Proof. unfold sumDeaths at 1. simpl. apply sumDeaths_acc. Qed.

Lemma monthTotal_cons (r : Row) (rows : list Row) (m : string) :
  monthTotal (r :: rows) m =
  (if String.eqb (month r) m then deaths r else 0) + monthTotal rows m.
Proof.
  unfold monthTotal. simpl. destruct (String.eqb (month r) m).
  - apply sumDeaths_cons.
  - reflexivity.
Qed.

Lemma sumTotals_nil_rows (ms : list string) :
  sumTotals (map (fun m => (m, monthTotal [] m)) ms) = 0.
Proof. induction ms as [| m ms IH]; simpl; [reflexivity | exact IH]. Qed.

(** A row is counted under its own month and under no other. *)
Lemma sumTotals_cons_row (r : Row) (rows : list Row) (ms : list string) :
  NoDup ms ->
  sumTotals (map (fun m => (m, monthTotal (r :: rows) m)) ms) =
  (if bool_decide (month r ∈ ms) then deaths r else 0) +
  sumTotals (map (fun m => (m, monthTotal rows m)) ms).
Proof.
  induction 1 as [| m ms Hnotin Hnd IH]; simpl; [reflexivity |].
  rewrite IH, monthTotal_cons. clear IH.
  destruct (String.eqb_spec (month r) m) as [E | Hne].
  - rewrite (bool_decide_eq_true_2 (month r ∈ m :: ms))
      by (rewrite E; apply elem_of_cons; now left).
    rewrite (bool_decide_eq_false_2 (month r ∈ ms))
      by (rewrite E; assumption).
    lia.
  - destruct (decide (month r ∈ ms)) as [Hin | Hout].
    + rewrite (bool_decide_eq_true_2 (month r ∈ m :: ms))
        by (apply elem_of_cons; now right).
      rewrite (bool_decide_eq_true_2 (month r ∈ ms)) by assumption. lia.
    + rewrite (bool_decide_eq_false_2 (month r ∈ m :: ms))
        by (rewrite elem_of_cons; tauto).
      rewrite (bool_decide_eq_false_2 (month r ∈ ms)) by assumption. lia.
Qed.

Lemma sumDeaths_by_month (rows : list Row) :
  Forall (fun r => month r ∈ months) rows ->
  sumDeaths rows = sumTotals (map (fun m => (m, monthTotal rows m)) months).
Proof.
  induction 1 as [| r rows Hr Hrows IH].
  - now rewrite sumTotals_nil_rows.
  - rewrite sumDeaths_cons, sumTotals_cons_row by exact months_NoDup.
    rewrite bool_decide_eq_true_2 by assumption. now rewrite IH.
Qed.

End ByMonth.

Lemma monthOrder_NoDup : NoDup monthOrder.
Proof. apply (bool_decide_unpack _). vm_compute. exact I. Qed.

Lemma overdoseData_months : Forall (fun r => month r ∈ monthOrder) overdoseData.
Proof. apply (bool_decide_unpack _). vm_compute. exact I. Qed.

Lemma filtered_months (selectedDrugs : list string) :
  Forall (fun r => month r ∈ monthOrder) (filtered selectedDrugs).
Proof.
  apply Forall_forall. intros r Hr.
  apply list_elem_of_In, filter_In in Hr. destruct Hr as [Hr _].
  apply list_elem_of_In in Hr.
  exact (proj1 (Forall_forall _ _) overdoseData_months r Hr).
Qed.

(** C10. For every selection, the grand total is the sum of the twelve
    per-month totals: each row of the dataset carries one of the twelve
    months of the fixed order, so grouping by month loses and repeats
    nothing. *)
Theorem grandTotal_sum_of_month_totals (selectedDrugs : list string) :
  grandTotal selectedDrugs = sumTotals (totalsByMonth selectedDrugs) /\
  length (totalsByMonth selectedDrugs) = 12%nat /\
  Forall (fun r => month r ∈ monthOrder) overdoseData.
Proof.
  split; [| split; [reflexivity | exact overdoseData_months]].
  unfold grandTotal, totalsByMonth.
  apply sumDeaths_by_month; [exact monthOrder_NoDup | apply filtered_months].
Qed.

(** ** The vertical scale *)

Module ChartFacts.
Import Chart.
Local Open Scope Q_scope.

Lemma Qgt_bool_true (a b : Q) : Qgt_bool a b = true <-> b < a.
Proof.
  unfold Qgt_bool. rewrite negb_true_iff. split.
  - intros H. apply Qnot_le_lt. intros Hle.
    apply Qle_bool_iff in Hle. congruence.
  - intros H. destruct (Qle_bool a b) eqn:E; [| reflexivity].
    apply Qle_bool_iff in E. exfalso. exact (Qlt_not_le _ _ H E).
Qed.

Lemma Qgt_bool_false (a b : Q) : Qgt_bool a b = false <-> a <= b.
Proof.
  unfold Qgt_bool. rewrite negb_false_iff. apply Qle_bool_iff.
Qed.

Lemma yDivisor_cases (maxValue : Q) :
  (0 < maxValue /\ yDivisor maxValue = maxValue) \/
  (maxValue <= 0 /\ yDivisor maxValue = 1).
Proof.
  unfold yDivisor. destruct (Qgt_bool maxValue 0) eqn:E.
  - left. split; [now apply Qgt_bool_true | reflexivity].
  - right. split; [now apply Qgt_bool_false | reflexivity].
Qed.

Lemma yDivisor_pos (maxValue : Q) : 0 < yDivisor maxValue.
Proof.
  destruct (yDivisor_cases maxValue) as [[H ->] | [_ ->]];
    [exact H | reflexivity].
Qed.

Lemma plotHeight_value : plotHeight == 316.
Proof. reflexivity. Qed.

End ChartFacts.

(** The maximum the page hands to the chart is a count of the table, or 1
    for an empty selection. *)
Example maxValue_full : maxValue drugs = 212.
Proof. reflexivity. Qed.

Lemma fold_left_max_elem (l : list Z) (a : Z) : fold_left Z.max l a ∈ a :: l.
Proof.
  revert a. induction l as [| x l IH]; intros a; simpl.
  - apply elem_of_cons. now left.
  - specialize (IH (Z.max a x)). apply elem_of_cons in IH.
    destruct IH as [-> | IH].
    + destruct (Z.max_spec a x) as [[_ ->] | [_ ->]].
      * apply elem_of_cons. right. apply elem_of_cons. now left.
      * apply elem_of_cons. now left.
    + rewrite !elem_of_cons. tauto.
Qed.

Lemma maxValue_range (selectedDrugs : list string) :
  maxValue selectedDrugs ∈ 1 :: map deaths overdoseData.
Proof.
  unfold maxValue. destruct (filtered selectedDrugs) as [| r rest] eqn:E.
  - apply elem_of_cons. now left.
  - apply elem_of_cons. right.
    pose proof (fold_left_max_elem (map deaths rest) (deaths r)) as H.
    change (deaths r :: map deaths rest) with (map deaths (r :: rest)) in H.
    rewrite <- E in H. apply list_elem_of_In, in_map_iff in H.
    destruct H as (r' & <- & Hin). apply filter_In in Hin.
    apply list_elem_of_In, in_map. tauto.
Qed.

(** On binary64 numbers too the divisor is never a zero, whatever is
    supplied: a NaN, a zero of either sign and a negative number all give 1. *)
Lemma yDivisor_binary64_nonzero (maxValue : float) :
  (Chart64.yDivisor maxValue =? 0)%float = false.
Proof.
  unfold Chart64.yDivisor. destruct (0 <? maxValue)%float eqn:E; [| reflexivity].
  rewrite FloatAxioms.ltb_spec in E. rewrite FloatAxioms.eqb_spec.
  change (Prim2SF 0) with (S754_zero false) in *.
  destruct (Prim2SF maxValue) as [s | s | | s mant e]; simpl in *;
    try discriminate; try reflexivity.
  all: destruct s; simpl in *; try discriminate; reflexivity.
Qed.

(** On binary64 numbers the maximum goes to the top margin and 0 to the baseline exactly
    for every maximum the page can supply, whatever the selection: the
    products and quotients involved are small integers, so nothing is
    rounded. *)
Lemma yPos_binary64_on_page (selectedDrugs : list string) :
  Chart64.extremes_ok (maxValue selectedDrugs) = true.
Proof.
  assert (Hall : forallb Chart64.extremes_ok (1 :: map deaths overdoseData) = true)
    by (vm_compute; reflexivity).
  rewrite forallb_forall in Hall. apply Hall.
  apply list_elem_of_In, maxValue_range.
Qed.

Example maxValue_empty : maxValue [] = 1.
Proof. reflexivity. Qed.


(** ** Rejections of the identity service *)

Module AuthFacts.
Import Auth.

Section Service.
Variable svc : IdentityService.

Lemma handleRegister_rejected (st : State) (err : AuthErr) :
  createUserWithEmailAndPassword svc (email st) (password st) = Rejected err ->
  handleRegister svc st = (with_error st (message err), inl tt).
Proof.
  intros Hrej. unfold handleRegister, bind, try_catch, await, setAuthError.
  simpl. rewrite Hrej. reflexivity.
Qed.

Lemma handleRegister_resolved (st : State) :
  createUserWithEmailAndPassword svc (email st) (password st) = Resolved ->
  handleRegister svc st = (with_error st "", inl tt).
Proof.
  intros Hres. unfold handleRegister, bind, try_catch, await, setAuthError.
  simpl. rewrite Hres. reflexivity.
Qed.

Lemma handleLogin_rejected (st : State) (err : AuthErr) :
  signInWithEmailAndPassword svc (email st) (password st) = Rejected err ->
  handleLogin svc st = (with_error st (message err), inl tt).
Proof.
  intros Hrej. unfold handleLogin, bind, try_catch, await, setAuthError.
  simpl. rewrite Hrej. reflexivity.
Qed.

Lemma handleLogin_resolved (st : State) :
  signInWithEmailAndPassword svc (email st) (password st) = Resolved ->
  handleLogin svc st = (with_error st "", inl tt).
Proof.
  intros Hres. unfold handleLogin, bind, try_catch, await, setAuthError.
  simpl. rewrite Hres. reflexivity.
Qed.

(** In the signed-out form a caught rejection with a non-empty message is
    what the error area shows. *)
Lemma displayedError_with_error (st : State) (msg : string) :
  user st = None -> msg <> "" ->
  displayedError (with_error st msg) = Some msg.
Proof.
  intros Huser Hmsg. unfold displayedError, with_error. simpl.
  rewrite Huser. destruct (String.eqb_spec msg ""); congruence.
Qed.

(** [handleLogout] has no [try]: the state is left as it was and the
    rejection leaves the handler uncaught. *)
Lemma handleLogout_rejected (st : State) (err : AuthErr) :
  signOut svc = Rejected err ->
  handleLogout svc st = (st, inr err).
Proof.
  intros Hrej. unfold handleLogout, await. rewrite Hrej. reflexivity.
Qed.
End Service.

End AuthFacts.

(** C1, at the input where the code departs from it. A rejected sign-out is
    not caught by [handleLogout]: the error string keeps its old value,
    nothing is displayed, and the rejection escapes the handler. The two
    other handlers do set the error string to the message
    ([handleRegister_rejected], [handleLogin_rejected]). *)
Theorem handleLogout_rejection_not_surfaced :
  let out := Auth.handleLogout Auth.failingSignOut Auth.signedIn in
  Auth.authError (fst out) = "" /\
  String.eqb (Auth.authError (fst out)) (Auth.message Auth.networkDown) = false /\
  Auth.displayedError (fst out) = None /\
  snd out = inr Auth.networkDown.
Proof.
  simpl. repeat split; reflexivity.
Qed.

(** * Further properties of the session variant *)

(** ** Facts about the generated table *)

Lemma drugs_NoDup : NoDup drugs.
Proof. apply (bool_decide_unpack _). vm_compute. exact I. Qed.

Lemma overdoseData_drugs : Forall (fun r => drug r ∈ drugs) overdoseData.
Proof. apply (bool_decide_unpack _). vm_compute. exact I. Qed.

Lemma overdoseData_positive : Forall (fun r => 0 < deaths r) overdoseData.
Proof. apply (bool_decide_unpack _). vm_compute. exact I. Qed.

Lemma known_drug_has_row (d : string) :
  d ∈ drugs -> exists r, r ∈ overdoseData /\ drug r = d.
Proof.
  intros Hd.
  assert (Hall : forallb (fun d' => existsb (fun r => String.eqb (drug r) d')
                                      overdoseData) drugs = true)
    by (vm_compute; reflexivity).
  rewrite forallb_forall in Hall. apply list_elem_of_In, Hall in Hd.
  apply existsb_exists in Hd. destruct Hd as (r & Hr & E).
  apply String.eqb_eq in E. exists r. split; [now apply list_elem_of_In | exact E].
Qed.

Lemma elem_of_filtered (selectedDrugs : list string) (r : Row) :
  r ∈ filtered selectedDrugs <-> r ∈ overdoseData /\ drug r ∈ selectedDrugs.
Proof.
  unfold filtered.
  rewrite !list_elem_of_In, filter_In, includes_elem_of, list_elem_of_In.
  reflexivity.
Qed.

(** Two arrays with the same [includes] answers select the same rows. *)
Lemma filtered_ext (sel1 sel2 : list string) :
  (forall x, includes sel1 x = includes sel2 x) -> filtered sel1 = filtered sel2.
Proof.
  intros Hext. unfold filtered. apply filter_ext. intros r. apply Hext.
Qed.

Lemma includes_ext (sel1 sel2 : list string) :
  (forall x, x ∈ sel1 <-> x ∈ sel2) -> forall x, includes sel1 x = includes sel2 x.
Proof.
  intros Hset x. destruct (includes sel2 x) eqn:E.
  - apply includes_elem_of, Hset, includes_elem_of, E.
  - apply includes_false. rewrite Hset. now apply includes_false.
Qed.

Lemma toggle_twice_elem_of (d : string) (prev : list string) (x : string) :
  x ∈ handleToggle d (handleToggle d prev) <-> x ∈ prev.
Proof.
  rewrite elem_of_handleToggle, includes_handleToggle.
  destruct (includes prev d) eqn:E; simpl; rewrite elem_of_handleToggle, E.
  - apply includes_elem_of in E. destruct (decide (x = d)) as [-> | Hne]; tauto.
  - apply includes_false in E. split; [tauto |].
    intros H. split; [tauto |]. intros ->. contradiction.
Qed.

(** ** The selection never holds a name twice *)

Lemma handleToggle_NoDup (d : string) (prev : list string) :
  NoDup prev -> NoDup (handleToggle d prev).
Proof.
  intros Hnd. unfold handleToggle. destruct (includes prev d) eqn:E.
  - apply NoDup_ListNoDup, List.NoDup_filter, NoDup_ListNoDup, Hnd.
  - apply includes_false in E. apply NoDup_app. split; [exact Hnd |].
    split; [| apply NoDup_singleton].
    intros x Hx Hd. apply list_elem_of_singleton in Hd. now subst.
Qed.

(** X1. Every selection reached from the initial one by toggles of known
    drugs, "Select all" and "Clear" lists each name at most once, so the chart
    never draws a series twice. *)
Theorem reachable_NoDup (sel : list string) :
  reachable sel -> NoDup sel.
Proof.
  induction 1 as [| a sel Hreach IH Hen].
  - exact drugs_NoDup.
  - destruct a as [d | |]; simpl.
    + now apply handleToggle_NoDup.
    + exact drugs_NoDup.
    + apply NoDup_nil_2.
Qed.

Lemma reachable_NoDup_witness :
  reachable (step (Toggle "Cocaine") (step SelectAll initialSelection)) /\
  NoDup (step (Toggle "Cocaine") (step SelectAll initialSelection)).
Proof.
  assert (Hr : reachable (step (Toggle "Cocaine") (step SelectAll initialSelection))).
  { apply reach_step; [apply reach_step; [apply reach_init | exact I] |].
    apply list_elem_of_In. simpl. tauto. }
  split; [exact Hr | exact (reachable_NoDup _ Hr)].
Defined.

(** X2. A toggle flips the membership of the toggled name and of no other
    name: afterwards [includes] answers the opposite for that name and the
    same for every other one. *)
Theorem toggle_membership (prev : list string) (d x : string) :
  includes (handleToggle d prev) x =
  if String.eqb x d then negb (includes prev d) else includes prev x.
Proof.
  destruct (String.eqb_spec x d) as [-> | Hne].
  - apply includes_handleToggle.
  - destruct (includes prev x) eqn:Ex.
    + apply includes_elem_of. apply includes_elem_of in Ex.
      rewrite elem_of_handleToggle. destruct (includes prev d); tauto.
    + apply includes_false. apply includes_false in Ex.
      rewrite elem_of_handleToggle. destruct (includes prev d); tauto.
Qed.

(** X3. The filtered rows depend on the selection only as a set of names:
    two arrays with the same members, in any order and with any repetitions,
    give the same rows and hence the same statistics. *)
Theorem filtered_same_members (sel1 sel2 : list string) :
  list_to_set sel1 =@{gset string} list_to_set sel2 ->
  filtered sel1 = filtered sel2 /\ grandTotal sel1 = grandTotal sel2 /\
  totalsByMonth sel1 = totalsByMonth sel2 /\ avgMonthly sel1 = avgMonthly sel2.
Proof.
  intros Hset.
  assert (E : filtered sel1 = filtered sel2).
  { apply filtered_ext, includes_ext. intros x.
    rewrite <- !(elem_of_list_to_set (C := gset string)), Hset. reflexivity. }
  unfold grandTotal, totalsByMonth, avgMonthly, grandTotal. rewrite E.
  repeat split; reflexivity.
Qed.

Lemma filtered_same_members_witness :
  filtered ["Heroin"; "Cocaine"] = filtered ["Cocaine"; "Heroin"; "Cocaine"] /\
  grandTotal ["Heroin"; "Cocaine"] = grandTotal ["Cocaine"; "Heroin"; "Cocaine"] /\
  totalsByMonth ["Heroin"; "Cocaine"] = totalsByMonth ["Cocaine"; "Heroin"; "Cocaine"] /\
  avgMonthly ["Heroin"; "Cocaine"] = avgMonthly ["Cocaine"; "Heroin"; "Cocaine"].
Proof.
  apply (filtered_same_members ["Heroin"; "Cocaine"] ["Cocaine"; "Heroin"; "Cocaine"]).
  apply (bool_decide_unpack _). vm_compute. exact I.
Defined.

(** X4. Toggling a name twice brings back the same filtered rows and the
    same statistics, although the array itself may be reordered. *)
Theorem toggle_twice_same_view (sel : list string) (d : string) :
  filtered (handleToggle d (handleToggle d sel)) = filtered sel /\
  grandTotal (handleToggle d (handleToggle d sel)) = grandTotal sel /\
  totalsByMonth (handleToggle d (handleToggle d sel)) = totalsByMonth sel /\
  avgMonthly (handleToggle d (handleToggle d sel)) = avgMonthly sel /\
  maxValue (handleToggle d (handleToggle d sel)) = maxValue sel.
Proof.
  assert (E : filtered (handleToggle d (handleToggle d sel)) = filtered sel).
  { apply filtered_ext, includes_ext. intros x. apply toggle_twice_elem_of. }
  unfold grandTotal, totalsByMonth, avgMonthly, maxValue, grandTotal. rewrite E.
  repeat split; reflexivity.
Qed.

(** X5. The filtered table is empty, and the page shows its placeholder
    instead of the chart, exactly when no known drug is in the selection. *)
Theorem filtered_empty_iff (sel : list string) :
  filtered sel = [] <-> Forall (fun d => d ∉ sel) drugs.
Proof.
  split.
  - intros Hnil. apply Forall_forall. intros d Hd Hsel.
    destruct (known_drug_has_row d Hd) as (r & Hr & <-).
    assert (Hin : r ∈ filtered sel) by (apply elem_of_filtered; tauto).
    rewrite Hnil in Hin. inversion Hin.
  - intros Hnone. destruct (filtered sel) as [| r rest] eqn:E; [reflexivity |].
    assert (Hin : r ∈ filtered sel) by (rewrite E; apply elem_of_cons; now left).
    apply elem_of_filtered in Hin. destruct Hin as [Hr Hsel].
    pose proof (proj1 (Forall_forall _ _) overdoseData_drugs r Hr) as Hknown.
    exfalso. exact (proj1 (Forall_forall _ _) Hnone _ Hknown Hsel).
Qed.

(** ** Sums over the filtered table *)

Lemma sumDeaths_filter_le (P Q : Row -> bool) (rows : list Row) :
  Forall (fun r => 0 < deaths r) rows ->
  (forall r, r ∈ rows -> P r = true -> Q r = true) ->
  0 <= sumDeaths (List.filter P rows) <= sumDeaths (List.filter Q rows).
Proof.
  induction 1 as [| r rows Hr Hrows IH]; intros Himp; simpl.
  - unfold sumDeaths. simpl. lia.
  - assert (IH' : 0 <= sumDeaths (List.filter P rows) <= sumDeaths (List.filter Q rows)).
    { apply IH. intros r' Hr'. apply Himp, elem_of_cons. now right. }
    specialize (Himp r (proj2 (elem_of_cons _ _ _) (or_introl eq_refl))).
    destruct (P r) eqn:EP.
    + rewrite (Himp eq_refl), !sumDeaths_cons. lia.
    + destruct (Q r); rewrite ?sumDeaths_cons; lia.
Qed.

Lemma filter_true (rows : list Row) : List.filter (fun _ => true) rows = rows.
Proof. induction rows as [| r rows IH]; simpl; congruence. Qed.

Lemma filtered_positive (sel : list string) :
  Forall (fun r => 0 < deaths r) (filtered sel).
Proof.
  apply Forall_forall. intros r Hr. apply elem_of_filtered in Hr.
  exact (proj1 (Forall_forall _ _) overdoseData_positive r (proj1 Hr)).
Qed.

(** X6. Selecting more never lowers the total: when every name of one
    selection is in another, the grand total of the first is at most that of
    the second, and it is never negative. *)
Theorem grandTotal_monotone (sel1 sel2 : list string) :
  sel1 ⊆ sel2 -> 0 <= grandTotal sel1 <= grandTotal sel2.
Proof.
  intros Hsub. unfold grandTotal, filtered.
  apply sumDeaths_filter_le; [exact overdoseData_positive |].
  intros r _ Hin. apply includes_elem_of. apply includes_elem_of in Hin.
  now apply Hsub.
Qed.

Lemma grandTotal_monotone_witness :
  ["Heroin"] ⊆ ["Cocaine"; "Heroin"] /\
  0 <= grandTotal ["Heroin"] <= grandTotal ["Cocaine"; "Heroin"].
Proof.
  assert (Hsub : ["Heroin"] ⊆ ["Cocaine"; "Heroin"]).
  { intros x Hx. apply list_elem_of_In. apply list_elem_of_In in Hx.
    simpl in *. tauto. }
  split; [exact Hsub | exact (grandTotal_monotone _ _ Hsub)].
Defined.

(** X7. Whatever the selection, the grand total lies between 0 and the
    total of the whole table, which is what the authentication variant
    shows; and once every known drug is selected the session variant shows
    exactly the whole table. *)
Theorem grandTotal_bounds (sel : list string) :
  0 <= grandTotal sel <= AuthApp.grandTotal /\
  (Forall (fun d => d ∈ sel) drugs ->
   filtered sel = AuthApp.filtered /\ grandTotal sel = AuthApp.grandTotal /\
   totalsByMonth sel = AuthApp.totalsByMonth /\ avgMonthly sel = AuthApp.avgMonthly).
Proof.
  split.
  - unfold grandTotal, AuthApp.grandTotal, AuthApp.filtered, filtered.
    pose proof (sumDeaths_filter_le
                  (fun entry => includes sel (drug entry)) (fun _ => true)
                  overdoseData overdoseData_positive (fun _ _ _ => eq_refl)) as H.
    now rewrite filter_true in H.
  - intros Hall.
    assert (E : filtered sel = overdoseData).
    { unfold filtered. rewrite <- (filter_true overdoseData) at 2.
      apply List.filter_ext_in. intros r Hr. apply includes_elem_of.
      apply (proj1 (Forall_forall _ _) Hall).
      apply list_elem_of_In in Hr.
      exact (proj1 (Forall_forall _ _) overdoseData_drugs r Hr). }
    unfold grandTotal, totalsByMonth, avgMonthly, AuthApp.avgMonthly,
      AuthApp.totalsByMonth, AuthApp.grandTotal, AuthApp.filtered, grandTotal.
    rewrite E. repeat split; reflexivity.
Qed.

Lemma grandTotal_bounds_witness :
  Forall (fun d => d ∈ "Aspirin" :: drugs) drugs /\
  filtered ("Aspirin" :: drugs) = AuthApp.filtered.
Proof.
  assert (Hall : Forall (fun d => d ∈ "Aspirin" :: drugs) drugs)
    by (apply (bool_decide_unpack _); vm_compute; exact I).
  split; [exact Hall |].
  exact (proj1 (proj2 (grandTotal_bounds ("Aspirin" :: drugs)) Hall)).
Defined.

(** ** One drug at a time *)

Lemma obj_get_None {A : Type} (obj : list (string * A)) (key : string) :
  key ∉ map fst obj -> obj_get obj key = None.
Proof.
  intros Hnot. unfold obj_get.
  destruct (List.find (fun e => String.eqb (fst e) key) obj) as [e |] eqn:E;
    [| reflexivity].
  apply find_some in E. destruct E as [Hin Heq]. apply String.eqb_eq in Heq.
  exfalso. apply Hnot. subst key. apply list_elem_of_In, in_map, Hin.
Qed.

Lemma drug_rows_unknown (d : string) :
  d ∉ drugs -> List.filter (fun r => String.eqb (drug r) d) overdoseData = [].
Proof.
  intros Hnot.
  destruct (List.filter (fun r => String.eqb (drug r) d) overdoseData)
    as [| r rest] eqn:E; [reflexivity |].
  assert (Hin : In r (List.filter (fun r => String.eqb (drug r) d) overdoseData))
    by (rewrite E; now left).
  apply filter_In in Hin. destruct Hin as [Hr Heq]. apply String.eqb_eq in Heq.
  exfalso. apply Hnot. subst d.
  exact (proj1 (Forall_forall _ _) overdoseData_drugs r (proj2 (list_elem_of_In _ _) Hr)).
Qed.

(** The rows of one drug add up to the sum of its literal array. *)
Lemma drug_total (d : string) :
  sumDeaths (List.filter (fun r => String.eqb (drug r) d) overdoseData) = seriesSum d.
Proof.
  destruct (decide (d ∈ drugs)) as [Hd | Hd].
  - apply list_elem_of_In in Hd. simpl in Hd.
    repeat (destruct Hd as [<- | Hd]; [vm_compute; reflexivity |]).
    contradiction.
  - rewrite drug_rows_unknown by assumption.
    unfold seriesSum. rewrite obj_get_None by assumption. reflexivity.
Qed.

Lemma drug_count (d : string) :
  d ∈ drugs ->
  length (List.filter (fun r => String.eqb (drug r) d) overdoseData) = 12%nat.
Proof.
  intros Hd. apply list_elem_of_In in Hd. simpl in Hd.
  repeat (destruct Hd as [<- | Hd]; [vm_compute; reflexivity |]).
  contradiction.
Qed.

Lemma includes_cons (d : string) (sel : list string) (x : string) :
  includes (d :: sel) x = String.eqb x d || includes sel x.
Proof. reflexivity. Qed.

(** Adding a name that is not yet selected adds exactly the rows of that
    drug. *)
Lemma sumDeaths_filter_cons (d : string) (sel : list string) (rows : list Row) :
  d ∉ sel ->
  sumDeaths (List.filter (fun r => includes (d :: sel) (drug r)) rows) =
  sumDeaths (List.filter (fun r => String.eqb (drug r) d) rows) +
  sumDeaths (List.filter (fun r => includes sel (drug r)) rows).
Proof.
  intros Hnot. induction rows as [| r rows IH]; [reflexivity |].
  cbn [List.filter]. rewrite includes_cons.
  destruct (String.eqb_spec (drug r) d) as [E | Hne]; cbn [orb].
  - rewrite E, (proj2 (includes_false sel d) Hnot), !sumDeaths_cons, IH. lia.
  - destruct (includes sel (drug r)); rewrite ?sumDeaths_cons, IH; lia.
Qed.

Lemma length_filter_cons (d : string) (sel : list string) (rows : list Row) :
  d ∉ sel ->
  length (List.filter (fun r => includes (d :: sel) (drug r)) rows) =
  (length (List.filter (fun r => String.eqb (drug r) d) rows) +
   length (List.filter (fun r => includes sel (drug r)) rows))%nat.
Proof.
  intros Hnot. induction rows as [| r rows IH]; [reflexivity |].
  cbn [List.filter]. rewrite includes_cons.
  destruct (String.eqb_spec (drug r) d) as [E | Hne]; cbn [orb].
  - rewrite E, (proj2 (includes_false sel d) Hnot). cbn [length]. rewrite IH. lia.
  - destruct (includes sel (drug r)); cbn [length]; rewrite IH; lia.
Qed.

(** X8. For a selection without repeated names the grand total is the sum,
    over the selected names, of the literal array of each; a name that is not
    a key of the series table adds nothing. *)
Theorem grandTotal_by_drug (sel : list string) :
  NoDup sel -> grandTotal sel = sum_over seriesSum sel.
Proof.
  induction 1 as [| d sel Hnot Hnd IH].
  - unfold grandTotal. rewrite filtered_nil. reflexivity.
  - change (sum_over seriesSum (d :: sel))
      with (seriesSum d + sum_over seriesSum sel).
    rewrite <- IH, <- drug_total. unfold grandTotal, filtered.
    now apply sumDeaths_filter_cons.
Qed.

Lemma grandTotal_by_drug_witness :
  NoDup ["Cocaine"; "Aspirin"; "Heroin"] /\
  grandTotal ["Cocaine"; "Aspirin"; "Heroin"] =
  sum_over seriesSum ["Cocaine"; "Aspirin"; "Heroin"].
Proof.
  assert (Hnd : NoDup ["Cocaine"; "Aspirin"; "Heroin"])
    by (apply (bool_decide_unpack _); vm_compute; exact I).
  split; [exact Hnd | exact (grandTotal_by_drug _ Hnd)].
Defined.

(** X9. For a selection of known drugs without repeated names, the filtered
    table has twelve rows per selected drug. *)
Theorem filtered_length (sel : list string) :
  NoDup sel -> sel ⊆ drugs -> length (filtered sel) = (12 * length sel)%nat.
Proof.
  induction 1 as [| d sel Hnot Hnd IH]; intros Hsub.
  - rewrite filtered_nil. reflexivity.
  - assert (Hd : d ∈ drugs) by (apply Hsub, elem_of_cons; now left).
    assert (Hsel : sel ⊆ drugs)
      by (intros x Hx; apply Hsub, elem_of_cons; now right).
    change (length (d :: sel)) with (S (length sel)).
    specialize (IH Hsel). unfold filtered in *.
    rewrite length_filter_cons by assumption.
    rewrite (drug_count d Hd), IH. lia.
Qed.

Lemma filtered_length_witness :
  NoDup ["Cocaine"; "Heroin"] /\ ["Cocaine"; "Heroin"] ⊆ drugs /\
  length (filtered ["Cocaine"; "Heroin"]) = (12 * length ["Cocaine"; "Heroin"])%nat.
Proof.
  assert (Hnd : NoDup ["Cocaine"; "Heroin"])
    by (apply (bool_decide_unpack _); vm_compute; exact I).
  assert (Hsub : ["Cocaine"; "Heroin"] ⊆ drugs).
  { intros x Hx. apply list_elem_of_In. apply list_elem_of_In in Hx.
    simpl in *. tauto. }
  split; [exact Hnd |]. split; [exact Hsub |].
  exact (filtered_length _ Hnd Hsub).
Defined.

(** ** The average and the monthly totals *)

Lemma Math_round_quot (g : Z) (n : positive) :
  Math_round (inject_Z g / inject_Z (Z.pos n)) = (2 * g + Z.pos n) / (2 * Z.pos n).
Proof.
  unfold Math_round, Qfloor, Qdiv, Qinv, Qmult, Qplus, inject_Z. simpl.
  f_equal; lia.
Qed.

Lemma monthTotal_bounds (sel : list string) (m : string) :
  0 <= monthTotal (filtered sel) m <= grandTotal sel.
Proof.
  unfold monthTotal, grandTotal.
  pose proof (sumDeaths_filter_le
                (fun entry => String.eqb (month entry) m) (fun _ => true)
                (filtered sel) (filtered_positive sel) (fun _ _ _ => eq_refl)) as H.
  now rewrite filter_true in H.
Qed.

(** X10. For every selection the displayed average is the integer
    [(grandTotal + 6) / 12] (floor division): the grand total over the twelve
    months rounded to the nearest integer, a half going up. It is therefore
    never negative and within 6 of a twelfth of the total. *)
Theorem avgMonthly_formula (sel : list string) :
  avgMonthly sel = (grandTotal sel + 6) / 12 /\
  0 <= avgMonthly sel /\
  12 * avgMonthly sel - 6 <= grandTotal sel <= 12 * avgMonthly sel + 5.
Proof.
  assert (E : avgMonthly sel = (grandTotal sel + 6) / 12).
  { unfold avgMonthly. generalize (grandTotal sel). intros g.
    change (length monthOrder) with 12%nat. cbv beta iota.
    change (Z.of_nat 12) with (Z.pos 12). rewrite Math_round_quot.
    replace (2 * g + 12) with (2 * (g + 6)) by lia.
    change (2 * 12) with (2 * 12). apply Z.div_mul_cancel_l; lia. }
  pose proof (monthTotal_bounds sel "2024-01") as Hpos.
  rewrite E. split; [reflexivity |].
  pose proof (Z.div_mod (grandTotal sel + 6) 12 ltac:(lia)) as Hdm.
  pose proof (Z.mod_pos_bound (grandTotal sel + 6) 12 ltac:(lia)) as Hmod.
  assert (0 <= (grandTotal sel + 6) / 12) by (apply Z.div_pos; lia).
  lia.
Qed.

(** X11. The latest-month figure is the total of the filtered rows of
    December 2024, the last month of the fixed order: the lookup in the
    monthly totals always succeeds, so its fallback 0 is never what is shown
    for a non-empty month, and the figure lies between 0 and the grand
    total. *)
Theorem latestTotal_is_december (sel : list string) :
  latestTotal sel = monthTotal (filtered sel) "2024-12" /\
  0 <= latestTotal sel <= grandTotal sel.
Proof.
  assert (E : latestTotal sel = monthTotal (filtered sel) "2024-12").
  { unfold latestTotal, totalsByMonth. generalize (filtered sel). intros rows.
    reflexivity. }
  rewrite E. split; [reflexivity | apply monthTotal_bounds].
Qed.

(** X12. Every monthly total lies between 0 and the grand total, and the
    list of monthly totals follows the fixed order of the twelve months. *)
Theorem totalsByMonth_bounds (sel : list string) :
  map fst (totalsByMonth sel) = monthOrder /\
  Forall (fun row => 0 <= snd row <= grandTotal sel) (totalsByMonth sel).
Proof.
  split.
  - unfold totalsByMonth. rewrite map_map. exact (map_id monthOrder).
  - apply Forall_forall. intros row Hrow.
    apply list_elem_of_In, in_map_iff in Hrow. destruct Hrow as (m & <- & _).
    apply monthTotal_bounds.
Qed.

(** ** The maximum handed to the chart *)

Lemma fold_left_max_ge (l : list Z) (a x : Z) :
  x ∈ a :: l -> x <= fold_left Z.max l a.
Proof.
  revert a x. induction l as [| y l IH]; intros a x Hx; simpl.
  - apply elem_of_cons in Hx. destruct Hx as [-> | Hx]; [lia | inversion Hx].
  - assert (Hacc : Z.max a y <= fold_left Z.max l (Z.max a y))
      by (apply IH, elem_of_cons; now left).
    apply elem_of_cons in Hx. destruct Hx as [-> | Hx]; [lia |].
    apply elem_of_cons in Hx. destruct Hx as [-> | Hx]; [lia |].
    apply IH, elem_of_cons. now right.
Qed.

Lemma maxValue_pos (sel : list string) : 0 < maxValue sel.
Proof.
  pose proof (maxValue_range sel) as H. apply elem_of_cons in H.
  destruct H as [-> | H]; [lia |].
  apply list_elem_of_In, in_map_iff in H. destruct H as (r & <- & Hr).
  exact (proj1 (Forall_forall _ _) overdoseData_positive r
           (proj2 (list_elem_of_In _ _) Hr)).
Qed.

Lemma maxValue_ge (sel : list string) (r : Row) :
  r ∈ filtered sel -> deaths r <= maxValue sel.
Proof.
  intros Hr. unfold maxValue. destruct (filtered sel) as [| r0 rest] eqn:E.
  - inversion Hr.
  - apply fold_left_max_ge.
    change (deaths r0 :: map deaths rest) with (map deaths (r0 :: rest)).
    apply list_elem_of_In, in_map, list_elem_of_In, Hr.
Qed.

(** X13. The maximum handed to the chart is always above 0, so the chart's
    fallback divisor is never in play on this page, and no filtered row has
    a count above it. *)
Theorem maxValue_bounds (sel : list string) :
  0 < maxValue sel /\
  Forall (fun r => 0 < deaths r <= maxValue sel) (filtered sel) /\
  Chart.yDivisor (inject_Z (maxValue sel)) = inject_Z (maxValue sel).
Proof.
  split; [apply maxValue_pos |]. split.
  - apply Forall_forall. intros r Hr. split.
    + exact (proj1 (Forall_forall _ _) (filtered_positive sel) r Hr).
    + now apply maxValue_ge.
  - destruct (ChartFacts.yDivisor_cases (inject_Z (maxValue sel)))
      as [[_ E] | [Hle _]]; [exact E |].
    exfalso. pose proof (maxValue_pos sel) as Hpos.
    change 0%Q with (inject_Z 0) in Hle. rewrite <- Zle_Qle in Hle. lia.
Qed.

(** ** The series handed to the chart *)

Lemma find_filter {A : Type} (P Q : A -> bool) (l : list A) :
  (forall x, P x = true -> Q x = true) ->
  List.find P (List.filter Q l) = List.find P l.
Proof.
  intros Himp. induction l as [| x l IH]; [reflexivity |].
  cbn [List.filter List.find]. destruct (P x) eqn:EP.
  - rewrite (Himp x EP). cbn [List.find]. now rewrite EP.
  - destruct (Q x); cbn [List.find]; rewrite ?EP; exact IH.
Qed.

Lemma pointFor_selected (sel : list string) (d m : string) :
  d ∈ sel -> pointFor (filtered sel) d m = pointFor overdoseData d m.
Proof.
  intros Hd. unfold pointFor, filtered. rewrite find_filter; [reflexivity |].
  intros r Hr. apply andb_true_iff in Hr. destruct Hr as [Hr _].
  apply String.eqb_eq in Hr. rewrite Hr. now apply includes_elem_of.
Qed.

Lemma pointFor_unknown (rows : list Row) (d m : string) :
  Forall (fun r => drug r ∈ drugs) rows -> d ∉ drugs ->
  pointFor rows d m = BarePoint m 0.
Proof.
  intros Hrows Hd. unfold pointFor.
  destruct (List.find _ rows) as [r |] eqn:E; [| reflexivity].
  apply find_some in E. destruct E as [Hin Hr].
  apply andb_true_iff in Hr. destruct Hr as [Hr _]. apply String.eqb_eq in Hr.
  exfalso. apply Hd. rewrite <- Hr.
  exact (proj1 (Forall_forall _ _) Hrows r (proj2 (list_elem_of_In _ _) Hin)).
Qed.

Lemma filtered_drugs (sel : list string) :
  Forall (fun r => drug r ∈ drugs) (filtered sel).
Proof.
  apply Forall_forall. intros r Hr. apply elem_of_filtered in Hr.
  exact (proj1 (Forall_forall _ _) overdoseData_drugs r (proj1 Hr)).
Qed.

Lemma elem_of_dataByDrug (sel : list string) (s : DrugSeries) :
  s ∈ dataByDrug sel ->
  exists d, d ∈ sel /\
    s = mkSeries d (default "#0ea5e9" (obj_get palette d))
          (map (pointFor (filtered sel) d) monthOrder).
Proof.
  intros Hs. apply list_elem_of_In, in_map_iff in Hs.
  destruct Hs as (d & <- & Hd). exists d. split; [| reflexivity].
  now apply list_elem_of_In.
Qed.

(** X14. The series of a selected known drug carries, month by month in the
    fixed order, exactly the counts of its literal array, in its palette
    colour: the placeholder point and the fallback colour are never used for
    it. *)
Theorem dataByDrug_known (sel : list string) (s : DrugSeries) :
  s ∈ dataByDrug sel -> s_drug s ∈ drugs ->
  map (fun p => (point_month p, point_deaths p)) (s_points s) =
    zip monthOrder (default [] (obj_get series (s_drug s))) /\
  obj_get palette (s_drug s) = Some (s_color s).
Proof.
  intros Hs Hknown. apply elem_of_dataByDrug in Hs.
  destruct Hs as (d & Hd & ->). cbn [s_drug s_points s_color] in *.
  rewrite (map_ext_in _ (pointFor overdoseData d))
    by (intros m _; now apply pointFor_selected).
  clear Hd. apply list_elem_of_In in Hknown. simpl in Hknown.
  repeat (destruct Hknown as [<- | Hknown];
          [split; vm_compute; reflexivity |]).
  contradiction.
Qed.

Lemma dataByDrug_known_witness :
  map (fun p => (point_month p, point_deaths p))
      (map (pointFor (filtered ["Cocaine"; "Heroin"]) "Heroin") monthOrder) =
    zip monthOrder (default [] (obj_get series "Heroin")) /\
  obj_get palette "Heroin" = Some "#f97316".
Proof.
  apply (dataByDrug_known ["Cocaine"; "Heroin"]
           (mkSeries "Heroin" "#f97316"
              (map (pointFor (filtered ["Cocaine"; "Heroin"]) "Heroin") monthOrder))).
  - apply list_elem_of_In. right. left. reflexivity.
  - apply list_elem_of_In. simpl. tauto.
Defined.

Lemma point_deaths_bounds (sel : list string) (s : DrugSeries) (p : Point) :
  s ∈ dataByDrug sel -> p ∈ s_points s -> 0 <= point_deaths p <= maxValue sel.
Proof.
  intros Hs Hp. apply elem_of_dataByDrug in Hs.
  destruct Hs as (d & _ & ->). cbn [s_points] in Hp.
  apply list_elem_of_In, in_map_iff in Hp. destruct Hp as (m & <- & _).
  unfold pointFor.
  destruct (List.find _ (filtered sel)) as [r |] eqn:E; cbn [point_deaths].
  - apply find_some in E. destruct E as [Hin _].
    apply list_elem_of_In in Hin. split.
    + pose proof (proj1 (Forall_forall _ _) (filtered_positive sel) r Hin)
        as Hpos.
      cbv beta in Hpos. lia.
    + now apply maxValue_ge.
  - pose proof (maxValue_pos sel). lia.
Qed.

(** X16. The chart gets one series per entry of the selection, in the
    order of the selection, each with one point per month of the fixed order;
    and every point has a count between 0 and the maximum handed to the
    chart. *)
Theorem dataByDrug_shape (sel : list string) :
  map s_drug (dataByDrug sel) = sel /\
  Forall (fun s => map point_month (s_points s) = monthOrder /\
                   Forall (fun p => 0 <= point_deaths p <= maxValue sel)
                          (s_points s))
         (dataByDrug sel).
Proof.
  split.
  - unfold dataByDrug. rewrite map_map. exact (map_id sel).
  - apply Forall_forall. intros s Hs. apply elem_of_dataByDrug in Hs.
    destruct Hs as (d & Hd & ->). cbn [s_points]. split.
    + rewrite map_map. rewrite <- (map_id monthOrder) at 2.
      apply map_ext. intros m. unfold pointFor.
      destruct (List.find _ (filtered sel)) as [r |] eqn:E; [| reflexivity].
      apply find_some in E. destruct E as [_ Hr].
      apply andb_true_iff in Hr. destruct Hr as [_ Hr].
      now apply String.eqb_eq in Hr.
    + apply Forall_forall. intros p Hp.
      apply (point_deaths_bounds sel
               (mkSeries d (default "#0ea5e9" (obj_get palette d))
                  (map (pointFor (filtered sel) d) monthOrder))); [| exact Hp].
      apply list_elem_of_In, in_map_iff. exists d. split; [reflexivity |].
      now apply list_elem_of_In.
Qed.

(** ** The scales of the chart *)

Module ScaleFacts.
Import Chart.
Local Open Scope Q_scope.

Lemma plotHeight_pos : 0 < plotHeight.
Proof. reflexivity. Qed.

(** The scaled height of a value: what [yPos] subtracts from the baseline. *)
Lemma scaled_le (maxValue v1 v2 : Q) :
  v1 <= v2 ->
  (plotHeight * v1) / yDivisor maxValue <= (plotHeight * v2) / yDivisor maxValue.
Proof.
  intros Hle. unfold Qdiv. apply Qmult_le_compat_r.
  - apply Qmult_le_l; [exact plotHeight_pos | exact Hle].
  - apply Qlt_le_weak, Qinv_lt_0_compat, ChartFacts.yDivisor_pos.
Qed.

Lemma scaled_zero (maxValue : Q) : (plotHeight * 0) / yDivisor maxValue == 0.
Proof.
  field. intros E. pose proof (ChartFacts.yDivisor_pos maxValue) as H.
  rewrite E in H. discriminate.
Qed.

Lemma scaled_max (maxValue : Q) :
  0 < maxValue -> (plotHeight * maxValue) / yDivisor maxValue == plotHeight.
Proof.
  intros Hpos.
  destruct (ChartFacts.yDivisor_cases maxValue) as [[_ ->] | [Hle _]].
  - field. intros E. rewrite E in Hpos. discriminate.
  - exfalso. exact (Qlt_not_le _ _ Hpos Hle).
Qed.

Lemma yPos_in_plot (maxValue val : Q) :
  0 < maxValue -> 0 <= val <= maxValue ->
  m_top margin <= yPos maxValue val <= m_top margin + plotHeight.
Proof.
  intros Hpos [H0 Hmax].
  pose proof (scaled_le maxValue 0 val H0) as Hlo.
  pose proof (scaled_le maxValue val maxValue Hmax) as Hhi.
  rewrite scaled_zero in Hlo. rewrite (scaled_max maxValue Hpos) in Hhi.
  unfold yPos. set (q := (plotHeight * val) / yDivisor maxValue) in *.
  split; lra.
Qed.

End ScaleFacts.

(** X17. Every point of every series the page hands to the chart is drawn
    inside the plot area: its vertical position lies between the top margin
    and the baseline, whatever the selection. *)
Theorem points_inside_plot (sel : list string) :
  Forall (fun s =>
            Forall (fun p =>
                      (Chart.m_top Chart.margin <=
                         Chart.yPos (inject_Z (maxValue sel))
                                    (inject_Z (point_deaths p)) <=
                       Chart.m_top Chart.margin + Chart.plotHeight)%Q)
                   (s_points s))
         (dataByDrug sel).
Proof.
  apply Forall_forall. intros s Hs. apply Forall_forall. intros p Hp.
  pose proof (point_deaths_bounds sel s p Hs Hp) as [H0 Hmax].
  pose proof (maxValue_pos sel) as Hpos.
  apply ScaleFacts.yPos_in_plot.
  - change 0%Q with (inject_Z 0). now rewrite <- Zlt_Qlt.
  - split.
    + change 0%Q with (inject_Z 0). now rewrite <- Zle_Qle.
    + now rewrite <- Zle_Qle.
Qed.



(** ** The two handlers that catch *)

(** X22. [handleRegister] never rejects and changes nothing but the error
    string: the string is emptied when the call to the service resolves,
    whatever it held before, and set to the rejection's message, verbatim,
    when it rejects. *)
Theorem handleRegister_outcome (svc : Auth.IdentityService) (st : Auth.State) :
  Auth.handleRegister svc st =
  (Auth.with_error st
     match Auth.createUserWithEmailAndPassword svc (Auth.email st) (Auth.password st) with
     | Auth.Resolved => ""
     | Auth.Rejected err => Auth.message err
     end,
   inl tt).
Proof.
  unfold Auth.handleRegister, Auth.bind, Auth.try_catch, Auth.await,
    Auth.setAuthError, Auth.with_error. simpl.
  destruct (Auth.createUserWithEmailAndPassword svc (Auth.email st) (Auth.password st));
    reflexivity.
Qed.

(** X23. [handleLogin] never rejects and changes nothing but the error
    string: the string is emptied when the call to the service resolves,
    whatever it held before, and set to the rejection's message, verbatim,
    when it rejects. *)
Theorem handleLogin_outcome (svc : Auth.IdentityService) (st : Auth.State) :
  Auth.handleLogin svc st =
  (Auth.with_error st
     match Auth.signInWithEmailAndPassword svc (Auth.email st) (Auth.password st) with
     | Auth.Resolved => ""
     | Auth.Rejected err => Auth.message err
     end,
   inl tt).
Proof.
  unfold Auth.handleLogin, Auth.bind, Auth.try_catch, Auth.await,
    Auth.setAuthError, Auth.with_error. simpl.
  destruct (Auth.signInWithEmailAndPassword svc (Auth.email st) (Auth.password st));
    reflexivity.
Qed.

(** ** An unknown name in the selection *)

(** X15. A selected name that is not a key of the tables still gets a
    series of twelve placeholder points of count 0, one per month; and
    unless the name is one that object literals inherit from
    [Object.prototype], its colour is the fallback colour. *)
Theorem dataByDrug_unknown_name (sel : list string) (s : DrugSeries) :
  s ∈ dataByDrug sel -> s_drug s ∉ drugs ->
  s_points s = map (fun m => BarePoint m 0) monthOrder /\
  (s_drug s ∉ objectPrototypeNames -> s_color s = "#0ea5e9").
Proof.
  intros Hs Hunknown. apply elem_of_dataByDrug in Hs.
  destruct Hs as (d & Hd & ->). cbn [s_drug s_points s_color] in *. split.
  - apply map_ext. intros m.
    apply pointFor_unknown; [apply filtered_drugs | exact Hunknown].
  - intros _. rewrite obj_get_None; [reflexivity | exact Hunknown].
Qed.

Lemma dataByDrug_unknown_name_witness :
  s_points (mkSeries "Aspirin" "#0ea5e9"
              (map (pointFor (filtered ["Aspirin"]) "Aspirin") monthOrder)) =
    map (fun m => BarePoint m 0) monthOrder /\
  s_color (mkSeries "Aspirin" "#0ea5e9"
             (map (pointFor (filtered ["Aspirin"]) "Aspirin") monthOrder)) =
    "#0ea5e9".
Proof.
  assert (Hunknown : "Aspirin" ∉ drugs)
    by (apply (bool_decide_unpack _); vm_compute; exact I).
  assert (Hown : "Aspirin" ∉ objectPrototypeNames)
    by (apply (bool_decide_unpack _); vm_compute; exact I).
  assert (Hs : mkSeries "Aspirin" "#0ea5e9"
                 (map (pointFor (filtered ["Aspirin"]) "Aspirin") monthOrder)
               ∈ dataByDrug ["Aspirin"])
    by (apply list_elem_of_In; left; reflexivity).
  destruct (dataByDrug_unknown_name ["Aspirin"] _ Hs Hunknown) as [Hp Hc].
  split; [exact Hp | exact (Hc Hown)].
Defined.

(** * The scales as the page runs them, on binary64 numbers *)

Lemma forall_from_spec (f : Z -> bool) (count : nat) (lo z : Z) :
  forall_from f lo count = true -> lo <= z < lo + Z.of_nat count -> f z = true.
Proof.
  revert lo. induction count as [| k IH]; intros lo Hall Hz; [lia |].
  cbn [forall_from] in Hall. apply andb_true_iff in Hall.
  destruct Hall as [Hlo Hrest].
  destruct (Z.eq_dec z lo) as [-> | Hne]; [exact Hlo |].
  apply (IH (lo + 1)); [exact Hrest | lia].
Qed.

Lemma floats_eqb_eq (l1 l2 : list float) :
  Chart64.floats_eqb l1 l2 = true -> l1 = l2.
Proof.
  revert l2. induction l1 as [| x l1 IH]; intros [| y l2] H;
    cbn [Chart64.floats_eqb] in H; try discriminate; [reflexivity |].
  apply andb_true_iff in H. destruct H as [Hxy Hrest].
  apply FloatAxioms.Leibniz.eqb_spec in Hxy. subst y.
  now rewrite (IH l2 Hrest).
Qed.

(** Zero over a number above zero is zero, infinity included. *)
Lemma div_zero_pos (m : float) :
  (0 <? m)%float = true -> (0 / m)%float = 0%float.
Proof.
  intros H. rewrite <- (FloatAxioms.SF2Prim_Prim2SF (0 / m)).
  rewrite FloatAxioms.div_spec. rewrite FloatAxioms.ltb_spec in H.
  change (Prim2SF 0) with (S754_zero false) in *.
  destruct (Prim2SF m) as [s | s | | s mant e]; simpl in H;
    try discriminate; destruct s; try discriminate; reflexivity.
Qed.

Lemma yDivisor_binary64_cases (m : float) :
  (0 <? m)%float = true /\ Chart64.yDivisor m = m \/
  (0 <? m)%float = false /\ Chart64.yDivisor m = 1%float.
Proof.
  unfold Chart64.yDivisor. destruct (0 <? m)%float.
  - left. split; reflexivity.
  - right. split; reflexivity.
Qed.

Lemma pageMaxima_range : Forall (fun z => 1 <= z <= 212) pageMaxima.
Proof. apply (bool_decide_unpack _). vm_compute. exact I. Qed.

Lemma maxValue_page (sel : list string) :
  maxValue sel ∈ pageMaxima /\ 1 <= maxValue sel <= 212.
Proof.
  pose proof (maxValue_range sel) as Hin. split; [exact Hin |].
  exact (proj1 (Forall_forall _ _) pageMaxima_range _ Hin).
Qed.

Lemma point_deaths_page (sel : list string) (s : DrugSeries) (p : Point) :
  s ∈ dataByDrug sel -> p ∈ s_points s -> point_deaths p ∈ pageCounts.
Proof.
  intros Hs Hp. apply elem_of_dataByDrug in Hs.
  destruct Hs as (d & _ & ->). cbn [s_points] in Hp.
  apply list_elem_of_In, in_map_iff in Hp. destruct Hp as (m & <- & _).
  unfold pointFor, pageCounts.
  destruct (List.find _ (filtered sel)) as [r |] eqn:E; cbn [point_deaths].
  - apply find_some in E. destruct E as [Hin _].
    apply list_elem_of_In, elem_of_filtered in Hin.
    apply elem_of_cons. right.
    apply list_elem_of_In, in_map, list_elem_of_In. tauto.
  - apply elem_of_cons. now left.
Qed.

Lemma top_ok_upto : forall_from Chart64.top_ok 1 (Z.to_nat 1000000) = true.
Proof. vm_compute. reflexivity. Qed.

Lemma yPos_binary64_top (n : Z) :
  1 <= n <= 1000000 ->
  Chart64.yPos (Chart64.of_count n) (Chart64.of_count n) = Chart64.margin_top.
Proof.
  intros Hn. apply FloatAxioms.Leibniz.eqb_spec.
  apply (forall_from_spec Chart64.top_ok _ 1 n top_ok_upto).
  rewrite Z2Nat.id; lia.
Qed.

(** C4, as the code has it. On binary64 numbers, for any supplied maximum
    above 0 the scale sends the value 0 to the baseline (the top margin plus
    the plot height); it sends a value equal to the maximum to the top of the
    plot area (the top margin) when the maximum is a whole number from 1 to
    1,000,000, and so for every maximum the page supplies, whatever the
    selection. *)
Theorem yPos_binary64_extremes (m : float) (n : Z) (sel : list string) :
  (0 <? m)%float = true -> 1 <= n <= 1000000 ->
  Chart64.yPos m 0 = (Chart64.margin_top + Chart64.plotHeight)%float /\
  Chart64.yPos (Chart64.of_count n) (Chart64.of_count n) = Chart64.margin_top /\
  Chart64.yPos (Chart64.of_count (maxValue sel)) (Chart64.of_count (maxValue sel)) =
    Chart64.margin_top.
Proof.
  intros Hm Hn. split; [| split].
  - unfold Chart64.yPos, Chart64.yDivisor. rewrite Hm.
    change (Chart64.plotHeight * 0)%float with 0%float.
    rewrite (div_zero_pos m Hm). reflexivity.
  - now apply yPos_binary64_top.
  - apply yPos_binary64_top. pose proof (maxValue_page sel) as [_ H]. lia.
Qed.

Lemma yPos_binary64_extremes_witness :
  (0 <? 212)%float = true /\ 1 <= 212 <= 1000000 /\
  Chart64.yPos 212 0 = (Chart64.margin_top + Chart64.plotHeight)%float /\
  Chart64.yPos (Chart64.of_count 212) (Chart64.of_count 212) = Chart64.margin_top /\
  Chart64.yPos (Chart64.of_count (maxValue drugs)) (Chart64.of_count (maxValue drugs)) =
    Chart64.margin_top.
Proof.
  split; [reflexivity |]. split; [lia |].
  apply (yPos_binary64_extremes 212 212 drugs); [reflexivity | lia].
Defined.

(** C4 as it is worded fails on the code: the maximum 0.9 (the binary64
    number nearest to it) is above 0, and a value equal to it lands just
    under the top margin, at 31.999999999999943. *)
Lemma yPos_max_off_top_binary64 :
  (0 <? 0x1.ccccccccccccdp-1)%float = true /\
  (Chart64.yPos 0x1.ccccccccccccdp-1 0x1.ccccccccccccdp-1
     =? Chart64.margin_top)%float = false /\
  (Chart64.yPos 0x1.ccccccccccccdp-1 0x1.ccccccccccccdp-1
     <? Chart64.margin_top)%float = true.
Proof. repeat split; vm_compute; reflexivity. Qed.

Lemma finite_ok_page : forallb (Chart64.finite_ok pageCounts) pageMaxima = true.
Proof. vm_compute. reflexivity. Qed.

Lemma finite_on_unit : Chart64.finite_on 1 pageCounts = true.
Proof. vm_compute. reflexivity. Qed.

(** C5, as the code has it. On binary64 numbers the scale never divides by
    zero, whatever maximum is supplied: its divisor is the maximum when that
    is above 0 and 1 otherwise (for 0, a negative number or a NaN). The
    coordinate is a finite number for every value the page hands to the
    scale, the counts of the points and the gridline values under any
    selection, and, when the maximum is not above 0, for every count a point
    can carry. *)
Theorem yPos_binary64_total (m : float) (sel : list string) :
  (Chart64.yDivisor m =? 0)%float = false /\
  ((0 <? m)%float = true /\ Chart64.yDivisor m = m \/
   (0 <? m)%float = false /\ Chart64.yDivisor m = 1%float) /\
  Forall (fun s =>
            Forall (fun p =>
                      is_finite (Chart64.yPos (Chart64.of_count (maxValue sel))
                                   (Chart64.of_count (point_deaths p))) = true)
                   (s_points s))
         (dataByDrug sel) /\
  Forall (fun v => is_finite (Chart64.yPos (Chart64.of_count (maxValue sel)) v) = true)
         (Chart64.gridLines (Chart64.of_count (maxValue sel))) /\
  ((0 <? m)%float = false ->
   Forall (fun v => is_finite (Chart64.yPos m (Chart64.of_count v)) = true)
          pageCounts).
Proof.
  pose proof (proj1 (forallb_forall _ _) finite_ok_page (maxValue sel)
                (proj1 (list_elem_of_In _ _) (proj1 (maxValue_page sel)))) as Hok.
  unfold Chart64.finite_ok in Hok. apply andb_true_iff in Hok.
  destruct Hok as [Hcounts Hgrid].
  split; [apply yDivisor_binary64_nonzero |].
  split; [apply yDivisor_binary64_cases |].
  split; [| split].
  - apply Forall_forall. intros s Hs. apply Forall_forall. intros p Hp.
    unfold Chart64.finite_on in Hcounts. rewrite forallb_forall in Hcounts.
    apply Hcounts, list_elem_of_In. exact (point_deaths_page sel s p Hs Hp).
  - apply Forall_forall. intros v Hv. rewrite forallb_forall in Hgrid.
    apply Hgrid, list_elem_of_In, Hv.
  - intros Hm. apply Forall_forall. intros v Hv.
    pose proof finite_on_unit as Hunit.
    unfold Chart64.finite_on in Hunit. rewrite forallb_forall in Hunit.
    apply list_elem_of_In, Hunit in Hv.
    unfold Chart64.yPos, Chart64.yDivisor in *. rewrite Hm. exact Hv.
Qed.

Lemma yPos_binary64_total_witness :
  (0 <? 0)%float = false /\
  Forall (fun v => is_finite (Chart64.yPos 0 (Chart64.of_count v)) = true)
         pageCounts.
Proof.
  split; [reflexivity |].
  exact (proj2 (proj2 (proj2 (proj2 (yPos_binary64_total 0 drugs)))) eq_refl).
Defined.

(** C5 as it is worded fails on the code: with the maximum 0 the divisor is
    1, and the value 2^1023 overflows the product, so the coordinate is minus
    infinity, not a finite number. *)
Lemma yPos_overflow_binary64 :
  (Chart64.yDivisor 0 =? 1)%float = true /\
  is_finite 0x1p1023 = true /\
  Chart64.yPos 0 0x1p1023 = neg_infinity /\
  is_finite (Chart64.yPos 0 0x1p1023) = false.
Proof. repeat split; vm_compute; reflexivity. Qed.

Lemma gridLines_ok_upto :
  forall_from Chart64.gridLines_ok 1 (Z.to_nat 1000000) = true.
Proof. vm_compute. reflexivity. Qed.

(** X19. On binary64 numbers, for every whole-number maximum from 1 to
    1,000,000, which covers every maximum the page supplies, the five
    gridlines are drawn evenly spaced from the baseline to the top of the
    plot area: exactly at 348, 269, 190, 111 and 32. *)
Theorem gridLines_binary64_positions (n : Z) :
  1 <= n <= 1000000 ->
  map (Chart64.yPos (Chart64.of_count n)) (Chart64.gridLines (Chart64.of_count n)) =
  [348; 269; 190; 111; 32]%float.
Proof.
  intros Hn. apply floats_eqb_eq.
  apply (forall_from_spec Chart64.gridLines_ok _ 1 n gridLines_ok_upto).
  rewrite Z2Nat.id; lia.
Qed.

Lemma gridLines_binary64_positions_witness :
  1 <= maxValue drugs <= 1000000 /\
  map (Chart64.yPos (Chart64.of_count (maxValue drugs)))
      (Chart64.gridLines (Chart64.of_count (maxValue drugs))) =
  [348; 269; 190; 111; 32]%float.
Proof.
  assert (Hn : 1 <= maxValue drugs <= 1000000) by (vm_compute; split; discriminate).
  split; [exact Hn | exact (gridLines_binary64_positions _ Hn)].
Defined.

Lemma xAxis_ok_upto : forallb Chart64.xAxis_ok (seq 0 1025) = true.
Proof. vm_compute. reflexivity. Qed.

(** X20. On binary64 numbers, for every list of at most 1024 months the
    horizontal scale never divides by zero (the number of steps is above 0,
    for the empty and the one-month list too), index 0 sits exactly at the
    left margin, and each index is drawn strictly to the right of the one
    before. *)
Theorem xPos_binary64_axis (months : list string) (i : nat) :
  (length months <= 1024)%nat ->
  (0 <? Chart64.steps months)%float = true /\
  Chart64.xPos months 0 = Chart64.margin_left /\
  ((i + 1 < length months)%nat ->
   (Chart64.xPos months (Chart64.of_count (Z.of_nat i))
      <? Chart64.xPos months (Chart64.of_count (Z.of_nat i + 1)))%float = true).
Proof.
  intros Hlen. unfold Chart64.xPos, Chart64.steps.
  pose proof (proj1 (forallb_forall _ _) xAxis_ok_upto (length months)) as Hok.
  assert (Hin : In (length months) (seq 0 1025)) by (apply in_seq; lia).
  specialize (Hok Hin). unfold Chart64.xAxis_ok in Hok. cbv zeta in Hok.
  apply andb_true_iff in Hok. destruct Hok as [Hok Hinc].
  apply andb_true_iff in Hok. destruct Hok as [Hsteps H0].
  split; [exact Hsteps |]. split.
  - now apply FloatAxioms.Leibniz.eqb_spec.
  - intros Hi.
    apply (forall_from_spec _ _ 0 (Z.of_nat i) Hinc). lia.
Qed.

Lemma xPos_binary64_axis_witness :
  (length monthOrder <= 1024)%nat /\ (10 + 1 < length monthOrder)%nat /\
  (Chart64.xPos monthOrder (Chart64.of_count (Z.of_nat 10))
     <? Chart64.xPos monthOrder (Chart64.of_count (Z.of_nat 10 + 1)))%float = true.
Proof.
  assert (Hlen : (length monthOrder <= 1024)%nat) by (cbn; lia).
  assert (Hi : (10 + 1 < length monthOrder)%nat) by (cbn; lia).
  split; [exact Hlen |]. split; [exact Hi |].
  exact (proj2 (proj2 (xPos_binary64_axis monthOrder 10 Hlen)) Hi).
Defined.

Lemma xLast_ok_upto : forallb Chart64.xLast_ok (seq 2 4095) = true.
Proof. vm_compute. reflexivity. Qed.

(** X21. On binary64 numbers, for every list of 2 to 4096 months the last
    index is drawn at the right edge of the plot area, the width less the
    right margin, up to one unit in the last place (2^-43) either way; on the
    page's own twelve months it is drawn exactly there. *)
Theorem xPos_binary64_last (months : list string) :
  (2 <= length months <= 4096)%nat ->
  (Chart64.width - Chart64.margin_right - 0x1p-43
     <=? Chart64.xPos months (Chart64.of_count (Z.of_nat (length months) - 1)))%float
    = true /\
  (Chart64.xPos months (Chart64.of_count (Z.of_nat (length months) - 1))
     <=? Chart64.width - Chart64.margin_right + 0x1p-43)%float = true /\
  Chart64.xPos monthOrder (Chart64.of_count (Z.of_nat (length monthOrder) - 1)) =
    (Chart64.width - Chart64.margin_right)%float.
Proof.
  intros Hlen. unfold Chart64.xPos.
  pose proof (proj1 (forallb_forall _ _) xLast_ok_upto (length months)) as Hok.
  assert (Hin : In (length months) (seq 2 4095)) by (apply in_seq; lia).
  specialize (Hok Hin). unfold Chart64.xLast_ok in Hok. cbv zeta in Hok.
  apply andb_true_iff in Hok. destruct Hok as [Hlo Hhi].
  split; [exact Hlo |]. split; [exact Hhi |].
  vm_compute. reflexivity.
Qed.

Lemma xPos_binary64_last_witness :
  (2 <= length ["2024-01"; "2024-02"; "2024-03"] <= 4096)%nat /\
  (Chart64.width - Chart64.margin_right - 0x1p-43
     <=? Chart64.xPos ["2024-01"; "2024-02"; "2024-03"]
           (Chart64.of_count (Z.of_nat (length ["2024-01"; "2024-02"; "2024-03"]) - 1)))%float
    = true.
Proof.
  assert (Hlen : (2 <= length ["2024-01"; "2024-02"; "2024-03"] <= 4096)%nat)
    by (cbn; lia).
  split; [exact Hlen |].
  exact (proj1 (xPos_binary64_last ["2024-01"; "2024-02"; "2024-03"] Hlen)).
Defined.
